(** * pkg/otlp/model/translator/consumer.go and the containerd SBOM stub

    A shallow embedding of the metric-type text codec
    ([MetricDataType.UnmarshalText] / [MetricDataType.MarshalText]), of the
    Go method sets behind the consumer interfaces, and of the
    [startSBOMCollection] stub of the [containerd && !trivy] build. *)

From Stdlib Require Import ZArith List Strings.String Bool Strings.Byte Lia.
Import ListNotations.

Module Translator.

Open Scope Z_scope.

(** ** Go [int]

    [type MetricDataType int]: the underlying type is Go's [int], a 64-bit
    two's complement integer on the platforms the agent is built for. *)
Definition int_min : Z := - 2 ^ 63.
Definition int_max : Z := 2 ^ 63 - 1.
Definition is_int (z : Z) : bool := (int_min <=? z) && (z <=? int_max).

Definition MetricDataType := Z.

(** [const ( Gauge MetricDataType = iota; Count )] *)
Definition Gauge : MetricDataType := 0.
Definition Count : MetricDataType := 1.

(** The zero value of a Go [int]-based type: [var t MetricDataType]. *)
Definition zero_value : MetricDataType := 0.

(** ** Errors

    The two [fmt.Errorf] results of the codec, kept with the operand they
    format: ["invalid metric data type %q"] (the rejected text) and
    ["invalid metric data type %d"] (the rejected ordinal). *)
Inductive error :=
| ErrInvalidText (text : list byte)
| ErrInvalidOrdinal (t : MetricDataType).

(** [[]byte("...")] *)
Definition bytes (s : string) : list byte := list_byte_of_string s.

(** [func (t *MetricDataType) UnmarshalText(text []byte) error]

    The receiver is a pointer: the result pairs the value stored at [*t]
    after the call with the returned error ([None] for [nil]). *)
Definition UnmarshalText (t : MetricDataType) (text : list byte)
  : MetricDataType * option error :=
  let s := string_of_list_byte text in
  if String.eqb s "gauge" then (Gauge, None)
  else if String.eqb s "count" then (Count, None)
  else (t, Some (ErrInvalidText text)).

(** [func (t MetricDataType) MarshalText() ([]byte, error)]; a [nil] slice
    is the empty list. *)
Definition MarshalText (t : MetricDataType) : list byte * option error :=
  if t =? Gauge then (bytes "gauge", None)
  else if t =? Count then (bytes "count", None)
  else ([], Some (ErrInvalidOrdinal t)).

(** ** Interfaces as method sets

    Go interfaces are satisfied structurally: a type implements an
    interface when its method set contains every method of the interface,
    with the same name and the same signature.  The parameter and result
    types that occur in this file are listed in [go_type]. *)
Inductive go_type :=
| TContext               (* context.Context *)
| TPtrDimensions         (* *Dimensions *)
| TMetricDataType        (* MetricDataType *)
| TUint64                (* uint64 *)
| TFloat64               (* float64 *)
| TPtrSketch             (* *quantile.Sketch *)
| TClientStatsPayload    (* pb.ClientStatsPayload *)
| TString.               (* string *)

Definition go_type_eqb (a b : go_type) : bool :=
  match a, b with
  | TContext, TContext | TPtrDimensions, TPtrDimensions
  | TMetricDataType, TMetricDataType | TUint64, TUint64
  | TFloat64, TFloat64 | TPtrSketch, TPtrSketch
  | TClientStatsPayload, TClientStatsPayload | TString, TString => true
  | _, _ => false
  end.

Fixpoint go_types_eqb (l1 l2 : list go_type) : bool :=
  match l1, l2 with
  | [], [] => true
  | a :: l1', b :: l2' => go_type_eqb a b && go_types_eqb l1' l2'
  | _, _ => false
  end.

Record method := mkMethod {
  m_name : string;
  m_params : list go_type;
  m_results : list go_type
}.

Definition method_eqb (m1 m2 : method) : bool :=
  String.eqb (m_name m1) (m_name m2)
  && go_types_eqb (m_params m1) (m_params m2)
  && go_types_eqb (m_results m1) (m_results m2).

(** An interface is the list of methods of its method set; embedding an
    interface adds its methods. *)
Definition interface := list method.

(** A method set [ms] implements [i] when every method of [i] is in [ms]. *)
Definition implements (ms : list method) (i : interface) : bool :=
  forallb (fun m => existsb (method_eqb m) ms) i.

Definition ConsumeTimeSeries : method :=
  mkMethod "ConsumeTimeSeries"
    [TContext; TPtrDimensions; TMetricDataType; TUint64; TFloat64] [].
Definition ConsumeSketch : method :=
  mkMethod "ConsumeSketch" [TContext; TPtrDimensions; TUint64; TPtrSketch] [].
Definition ConsumeAPMStats : method :=
  mkMethod "ConsumeAPMStats" [TClientStatsPayload] [].
Definition ConsumeHost : method := mkMethod "ConsumeHost" [TString] [].
Definition ConsumeTag : method := mkMethod "ConsumeTag" [TString] [].

Definition TimeSeriesConsumer : interface := [ConsumeTimeSeries].
Definition SketchConsumer : interface := [ConsumeSketch].
Definition APMStatsConsumer : interface := [ConsumeAPMStats].
Definition HostConsumer : interface := [ConsumeHost].
Definition TagsConsumer : interface := [ConsumeTag].

(** [type Consumer interface { TimeSeriesConsumer; SketchConsumer;
    APMStatsConsumer }] *)
Definition Consumer : interface :=
  TimeSeriesConsumer ++ SketchConsumer ++ APMStatsConsumer.

End Translator.

(** * pkg/workloadmeta/collectors/internal/containerd/image_sbom_stub.go

    Built under [containerd && !trivy]. *)
Module Containerd.

Section SBOMStub.

(** The collector state and Go's [error] values, both left abstract: the
    stub touches neither. *)
Variable collector : Type.
Variable go_error : Type.

(** [func (c *collector) startSBOMCollection() error { return nil }]:
    the collector after the call and the returned error. *)
Definition startSBOMCollection (c : collector) : collector * option go_error :=
  (c, None).

End SBOMStub.

End Containerd.

(** * Method sets of [MetricDataType] and [*MetricDataType]

    [var _ encoding.TextUnmarshaler = ( *MetricDataType)(nil)] and
    [var _ encoding.TextMarshaler = (MetricDataType)(Gauge)].  Go's rule:
    the method set of a named type [T] holds the methods declared with a
    value receiver; that of [*T] holds those declared with either receiver.
    Types are written as their Go spelling. *)
Module TextEncoding.

Local Open Scope string_scope.

Inductive receiver := ValueRecv | PtrRecv.

Record sig := mkSig {
  s_name : string;
  s_params : list string;
  s_results : list string
}.

Fixpoint strings_eqb (l1 l2 : list string) : bool :=
  match l1, l2 with
  | [], [] => true
  | a :: l1', b :: l2' => String.eqb a b && strings_eqb l1' l2'
  | _, _ => false
  end.

Definition sig_eqb (a b : sig) : bool :=
  String.eqb (s_name a) (s_name b)
  && strings_eqb (s_params a) (s_params b)
  && strings_eqb (s_results a) (s_results b).

Record method_decl := mkDecl { d_recv : receiver; d_sig : sig }.

(** The method set of [T] ([ptr = false]) or of [*T] ([ptr = true]). *)
Definition method_set (ptr : bool) (decls : list method_decl) : list sig :=
  map d_sig (filter (fun d => ptr || match d_recv d with
                                     | ValueRecv => true
                                     | PtrRecv => false
                                     end) decls).

Definition satisfies (ms : list sig) (iface : list sig) : bool :=
  forallb (fun m => existsb (sig_eqb m) ms) iface.

(** [encoding.TextMarshaler] and [encoding.TextUnmarshaler] *)
Definition TextMarshaler : list sig :=
  [mkSig "MarshalText" [] ["[]byte"; "error"]].
Definition TextUnmarshaler : list sig :=
  [mkSig "UnmarshalText" ["[]byte"] ["error"]].

(** The methods declared on [MetricDataType] in consumer.go. *)
Definition MetricDataType_decls : list method_decl :=
  [ mkDecl PtrRecv (mkSig "UnmarshalText" ["[]byte"] ["error"]);
    mkDecl ValueRecv (mkSig "MarshalText" [] ["[]byte"; "error"]) ].

End TextEncoding.

(** * comp/core/bundle.go *)
Module CoreBundle.

Section Bundle.

(** The parameter types of the config and log components, defined outside
    this bundle. *)
Variable ConfigParams LogParams : Type.

(** [type BundleParams struct { ConfigParams config.Params;
    LogParams log.Params }] (declared beside bundle.go). *)
Record BundleParams := mkBundleParams {
  bp_ConfigParams : ConfigParams;
  bp_LogParams : LogParams
}.

(** The fx options the bundles list: the two [fx.Provide] constructors and
    the component modules. *)
Inductive fx_option :=
| ProvideConfigParams (f : BundleParams -> ConfigParams)
| ProvideLogParams (f : BundleParams -> LogParams)
| ConfigModule
| LogModule
| FlareModule.

(** [fxutil.Bundle(opts...)]: the options in order. *)
Definition fx_bundle (opts : list fx_option) : list fx_option := opts.

Definition Bundle : list fx_option :=
  fx_bundle
    [ ProvideConfigParams (fun params => bp_ConfigParams params);
      ConfigModule;
      ProvideLogParams (fun params => bp_LogParams params);
      LogModule;
      FlareModule ].

Definition MockBundle : list fx_option :=
  fx_bundle
    [ ProvideConfigParams (fun params => bp_ConfigParams params);
      ConfigModule;
      ProvideLogParams (fun params => bp_LogParams params);
      LogModule ].

(** What fx hands [config.Module] / [log.Module] for given bundle
    parameters: the result of the first matching provider. *)
Fixpoint provided_config (opts : list fx_option) (p : BundleParams)
  : option ConfigParams :=
  match opts with
  | [] => None
  | ProvideConfigParams f :: _ => Some (f p)
  | _ :: rest => provided_config rest p
  end.

Fixpoint provided_log (opts : list fx_option) (p : BundleParams)
  : option LogParams :=
  match opts with
  | [] => None
  | ProvideLogParams f :: _ => Some (f p)
  | _ :: rest => provided_log rest p
  end.

End Bundle.

End CoreBundle.

(** * Properties of the metric-type codec *)
Module CodecFacts.

Import Translator.
Open Scope Z_scope.

(** [switch string(text)] compares the text with a literal exactly as a
    comparison of the byte slices would. *)
Lemma text_eqb_spec (text : list byte) (s : string) :
  String.eqb (string_of_list_byte text) s = true <-> text = bytes s.
Proof.
  rewrite String.eqb_eq. unfold bytes. split; intros H.
  - rewrite <- H. symmetry. apply list_byte_of_string_of_list_byte.
  - subst. apply string_of_list_byte_of_string.
Qed.

Lemma text_eqb_false (text : list byte) (s : string) :
  text <> bytes s -> String.eqb (string_of_list_byte text) s = false.
Proof.
  intros Hne. destruct (String.eqb _ s) eqn:E; [|reflexivity].
  apply text_eqb_spec in E. contradiction.
Qed.

Lemma UnmarshalText_gauge (t : MetricDataType) :
  UnmarshalText t (bytes "gauge") = (Gauge, None).
Proof. reflexivity. Qed.

Lemma UnmarshalText_count (t : MetricDataType) :
  UnmarshalText t (bytes "count") = (Count, None).
Proof. reflexivity. Qed.

Lemma UnmarshalText_other (t : MetricDataType) (text : list byte) :
  text <> bytes "gauge" -> text <> bytes "count" ->
  UnmarshalText t text = (t, Some (ErrInvalidText text)).
Proof.
  intros Hg Hc. unfold UnmarshalText.
  rewrite (text_eqb_false _ _ Hg), (text_eqb_false _ _ Hc). reflexivity.
Qed.

Lemma UnmarshalText_cases (t : MetricDataType) (text : list byte) :
  (text = bytes "gauge" /\ UnmarshalText t text = (Gauge, None))
  \/ (text = bytes "count" /\ UnmarshalText t text = (Count, None))
  \/ (text <> bytes "gauge" /\ text <> bytes "count"
      /\ UnmarshalText t text = (t, Some (ErrInvalidText text))).
Proof.
  destruct (list_eq_dec Byte.byte_eq_dec text (bytes "gauge")) as [->|Hg];
    [left; split; reflexivity|].
  destruct (list_eq_dec Byte.byte_eq_dec text (bytes "count")) as [->|Hc];
    [right; left; split; reflexivity|].
  right; right. repeat split; try assumption. apply UnmarshalText_other; assumption.
Qed.

Lemma MarshalText_other (t : MetricDataType) :
  t <> Gauge -> t <> Count -> MarshalText t = ([], Some (ErrInvalidOrdinal t)).
Proof.
  intros Hg Hc. unfold MarshalText.
  apply Z.eqb_neq in Hg, Hc. rewrite Hg, Hc. reflexivity.
Qed.

End CodecFacts.

(** * The claims *)
Module Claims.

Import Translator CodecFacts.
Open Scope Z_scope.

(** C1: MarshalText and UnmarshalText are mutual inverses over the two
    variants: decoding the encoding of [Gauge] or [Count] (into any
    receiver) stores that variant, and encoding the result of decoding
    ["gauge"] or ["count"] gives the same text back, all without error. *)
Theorem codec_roundtrip :
  (forall (v t0 : MetricDataType), In v [Gauge; Count] ->
     snd (MarshalText v) = None
     /\ UnmarshalText t0 (fst (MarshalText v)) = (v, None))
  /\ (forall (s : string) (t0 : MetricDataType), In s ["gauge"; "count"]%string ->
     snd (UnmarshalText t0 (bytes s)) = None
     /\ MarshalText (fst (UnmarshalText t0 (bytes s))) = (bytes s, None)).
Proof.
  split.
  - intros v t0 [<-|[<-|[]]]; split; reflexivity.
  - intros s t0 [<-|[<-|[]]]; split; reflexivity.
Qed.

Lemma codec_roundtrip_witness :
  snd (MarshalText Count) = None
  /\ UnmarshalText Gauge (fst (MarshalText Count)) = (Count, None).
Proof. apply (proj1 codec_roundtrip Count Gauge). right; left; reflexivity. Defined.

(** C2: MarshalText maps [Gauge] to ["gauge"] and [Count] to ["count"]
    without error, and UnmarshalText maps ["gauge"] to [Gauge] and
    ["count"] to [Count] without error, whatever the receiver held. *)
Theorem codec_known_tokens (t0 : MetricDataType) :
  MarshalText Gauge = (bytes "gauge", None)
  /\ MarshalText Count = (bytes "count", None)
  /\ UnmarshalText t0 (bytes "gauge") = (Gauge, None)
  /\ UnmarshalText t0 (bytes "count") = (Count, None).
Proof. repeat split. Qed.

(** C3: UnmarshalText returns the invalid-metric-type error for every text
    other than exactly ["gauge"] and ["count"]; the comparison is on the
    exact bytes, so e.g. ["GAUGE"] is rejected. *)
Theorem UnmarshalText_rejects (t0 : MetricDataType) (text : list byte) :
  text <> bytes "gauge" -> text <> bytes "count" ->
  snd (UnmarshalText t0 text) = Some (ErrInvalidText text).
Proof. intros Hg Hc. rewrite (UnmarshalText_other t0 text Hg Hc). reflexivity. Qed.

Lemma UnmarshalText_rejects_witness :
  bytes "GAUGE" <> bytes "gauge" /\ bytes "GAUGE" <> bytes "count"
  /\ snd (UnmarshalText Gauge (bytes "GAUGE"))
     = Some (ErrInvalidText (bytes "GAUGE")).
Proof.
  split; [discriminate|]. split; [discriminate|].
  apply (UnmarshalText_rejects Gauge (bytes "GAUGE")); discriminate.
Defined.

(** C4: MarshalText returns the invalid-metric-type error for every
    ordinal other than [Gauge] and [Count]. *)
Theorem MarshalText_rejects (t : MetricDataType) :
  t <> Gauge -> t <> Count ->
  snd (MarshalText t) = Some (ErrInvalidOrdinal t).
Proof. intros Hg Hc. rewrite (MarshalText_other t Hg Hc). reflexivity. Qed.

Lemma MarshalText_rejects_witness :
  (99 <> Gauge /\ 99 <> Count)
  /\ snd (MarshalText 99) = Some (ErrInvalidOrdinal 99).
Proof.
  split; [split; discriminate|].
  apply (MarshalText_rejects 99); discriminate.
Defined.

(** C5: the two directions agree on the token set: UnmarshalText succeeds
    on a text exactly when that text is what MarshalText produces, without
    error, for [Gauge] or [Count]. *)
Theorem codec_tokens_agree (t0 : MetricDataType) (text : list byte) :
  snd (UnmarshalText t0 text) = None
  <-> exists v, In v [Gauge; Count] /\ MarshalText v = (text, None).
Proof.
  split.
  - destruct (UnmarshalText_cases t0 text) as [[-> _]|[[-> _]|[_ [_ ->]]]];
      intros H.
    + exists Gauge. split; [left; reflexivity | reflexivity].
    + exists Count. split; [right; left; reflexivity | reflexivity].
    + discriminate H.
  - intros [v [[<-|[<-|[]]] H]]; injection H as <-; reflexivity.
Qed.

(** C6, as stated: every [int] value of type [MetricDataType] would be
    [Gauge] or [Count].  [MetricDataType] is declared as [int], so the
    ordinal 99 is a value of the type as well. *)
Lemma MetricDataType_not_closed :
  ~ (forall t : MetricDataType, is_int t = true -> t = Gauge \/ t = Count).
Proof.
  intros H. destruct (H 99 eq_refl) as [E|E]; discriminate E.
Qed.

(** C6, amended: any [int] is a value of [MetricDataType]; the valid ones
    are [Gauge] and [Count] in the sense that MarshalText succeeds exactly
    on these two ordinals, and UnmarshalText only ever stores one of them
    (or leaves the receiver as it was). *)
Theorem MetricDataType_valid_ordinals :
  (forall t : MetricDataType,
     snd (MarshalText t) = None <-> t = Gauge \/ t = Count)
  /\ (forall (t0 : MetricDataType) (text : list byte),
     fst (UnmarshalText t0 text) = Gauge
     \/ fst (UnmarshalText t0 text) = Count
     \/ fst (UnmarshalText t0 text) = t0).
Proof.
  split.
  - intros t. split.
    + intros H. destruct (Z.eq_dec t Gauge) as [->|Hg]; [left; reflexivity|].
      destruct (Z.eq_dec t Count) as [->|Hc]; [right; reflexivity|].
      rewrite (MarshalText_other t Hg Hc) in H. discriminate H.
    + intros [->| ->]; reflexivity.
  - intros t0 text.
    destruct (UnmarshalText_cases t0 text) as [[_ ->]|[[_ ->]|[_ [_ ->]]]];
      simpl; auto.
Qed.

(** C7: a method set implements [Consumer] exactly when it implements each
    of [TimeSeriesConsumer], [SketchConsumer] and [APMStatsConsumer]; one
    missing any of the three does not implement [Consumer]. *)
Theorem Consumer_requires_all (ms : list method) :
  (implements ms Consumer = true
   <-> implements ms TimeSeriesConsumer = true
       /\ implements ms SketchConsumer = true
       /\ implements ms APMStatsConsumer = true)
  /\ (implements ms TimeSeriesConsumer = false
      \/ implements ms SketchConsumer = false
      \/ implements ms APMStatsConsumer = false ->
      implements ms Consumer = false).
Proof.
  unfold implements, Consumer. rewrite !forallb_app.
  split.
  - rewrite !andb_true_iff. tauto.
  - intros [H|[H|H]]; rewrite H, ?andb_false_r; reflexivity.
Qed.

Lemma Consumer_requires_all_witness :
  implements [ConsumeTimeSeries; ConsumeSketch; ConsumeHost] APMStatsConsumer = false
  /\ implements [ConsumeTimeSeries; ConsumeSketch; ConsumeHost] Consumer = false.
Proof.
  split; [reflexivity|].
  apply (proj2 (Consumer_requires_all [ConsumeTimeSeries; ConsumeSketch; ConsumeHost])).
  right; right; reflexivity.
Defined.

(** C8: UnmarshalText leaves the receiver unchanged whenever it returns an
    error. *)
Theorem UnmarshalText_atomic (t0 t1 : MetricDataType) (text : list byte)
    (e : error) :
  UnmarshalText t0 text = (t1, Some e) -> t1 = t0.
Proof.
  destruct (UnmarshalText_cases t0 text) as [[_ ->]|[[_ ->]|[_ [_ ->]]]];
    intros H; injection H; intros; congruence.
Qed.

Lemma UnmarshalText_atomic_witness :
  UnmarshalText Count (bytes "GAUGE")
    = (Count, Some (ErrInvalidText (bytes "GAUGE")))
  /\ Count = Count.
Proof.
  split; [reflexivity|].
  apply (UnmarshalText_atomic Count Count (bytes "GAUGE")
           (ErrInvalidText (bytes "GAUGE"))).
  reflexivity.
Defined.

(** C9: the zero value of [MetricDataType] is [Gauge]; [Gauge] is ordinal 0
    and [Count] ordinal 1; the zero value encodes to ["gauge"] without
    error. *)
Theorem zero_value_is_Gauge :
  zero_value = Gauge /\ Gauge = 0 /\ Count = 1
  /\ MarshalText zero_value = (bytes "gauge", None).
Proof. repeat split. Qed.

End Claims.

(** C10: under [containerd && !trivy], [startSBOMCollection] returns [nil]
    and leaves the collector as it was. *)
Theorem startSBOMCollection_nil (collector go_error : Type) (c : collector) :
  Containerd.startSBOMCollection collector go_error c = (c, None).
Proof. reflexivity. Qed.

(** * Further properties of the code *)
Module Extras.

Import Translator CodecFacts.
Open Scope Z_scope.

(** Whenever MarshalText succeeds on an ordinal, UnmarshalText on the bytes
    it returned stores that same ordinal, whatever the receiver held. *)
Theorem MarshalText_then_UnmarshalText (t t0 : MetricDataType) (b : list byte) :
  MarshalText t = (b, None) -> UnmarshalText t0 b = (t, None).
Proof.
  destruct (Z.eq_dec t Gauge) as [->|Hg]; [intros H; injection H as <-; reflexivity|].
  destruct (Z.eq_dec t Count) as [->|Hc]; [intros H; injection H as <-; reflexivity|].
  rewrite (MarshalText_other t Hg Hc). discriminate.
Qed.

Lemma MarshalText_then_UnmarshalText_witness :
  MarshalText 1 = (bytes "count", None)
  /\ UnmarshalText 7 (bytes "count") = (1, None).
Proof.
  split; [reflexivity|].
  apply (MarshalText_then_UnmarshalText 1 7 (bytes "count")). reflexivity.
Defined.

(** Whenever UnmarshalText succeeds, MarshalText of the stored value returns
    exactly the input bytes: accepted text is already canonical. *)
Theorem UnmarshalText_then_MarshalText (t0 t : MetricDataType) (text : list byte) :
  UnmarshalText t0 text = (t, None) -> MarshalText t = (text, None).
Proof.
  destruct (UnmarshalText_cases t0 text) as [[-> ->]|[[-> ->]|[_ [_ ->]]]];
    intros H; injection H; intros; subst; reflexivity || discriminate.
Qed.

Lemma UnmarshalText_then_MarshalText_witness :
  UnmarshalText 42 (bytes "gauge") = (0, None)
  /\ MarshalText 0 = (bytes "gauge", None).
Proof.
  split; [reflexivity|].
  apply (UnmarshalText_then_MarshalText 42 0 (bytes "gauge")). reflexivity.
Defined.

(** The outcome of UnmarshalText does not depend on the receiver: the error
    is the same for any two receivers, and on success the stored value is
    the same too. *)
Theorem UnmarshalText_receiver_independent (t0 t1 : MetricDataType)
    (text : list byte) :
  snd (UnmarshalText t0 text) = snd (UnmarshalText t1 text)
  /\ (snd (UnmarshalText t0 text) = None ->
      fst (UnmarshalText t0 text) = fst (UnmarshalText t1 text)).
Proof.
  destruct (UnmarshalText_cases t0 text) as [[-> _]|[[-> _]|[Hg [Hc ->]]]];
    [split; reflexivity | split; reflexivity |].
  rewrite (UnmarshalText_other t1 text Hg Hc). split; [reflexivity | discriminate].
Qed.

(** UnmarshalText is idempotent: decoding the same text again into the
    result of a first decode changes nothing. *)
Theorem UnmarshalText_idempotent (t0 : MetricDataType) (text : list byte) :
  UnmarshalText (fst (UnmarshalText t0 text)) text = UnmarshalText t0 text.
Proof.
  destruct (UnmarshalText_cases t0 text) as [[-> ->]|[[-> ->]|[Hg [Hc ->]]]];
    simpl; [reflexivity | reflexivity |].
  apply UnmarshalText_other; assumption.
Qed.

(** MarshalText returns a non-empty byte slice exactly when it returns no
    error; on error the slice is [nil]. *)
Theorem MarshalText_bytes_xor_error (t : MetricDataType) :
  fst (MarshalText t) = [] <-> snd (MarshalText t) <> None.
Proof.
  destruct (Z.eq_dec t Gauge) as [->|Hg].
  - simpl. split; [discriminate | intros H; exfalso; apply H; reflexivity].
  - destruct (Z.eq_dec t Count) as [->|Hc].
    + simpl. split; [discriminate | intros H; exfalso; apply H; reflexivity].
    + rewrite (MarshalText_other t Hg Hc). simpl. split; [discriminate | reflexivity].
Qed.

(** A type that implements [Consumer] still implements it when it has
    further methods, such as the optional [ConsumeHost] or [ConsumeTag]. *)
Theorem Consumer_extra_methods (ms ms' : list method) :
  implements ms Consumer = true -> implements (ms ++ ms') Consumer = true.
Proof.
  unfold implements. rewrite !forallb_forall. intros H m Hm.
  rewrite existsb_app, (H m Hm). reflexivity.
Qed.

Lemma Consumer_extra_methods_witness :
  implements [ConsumeAPMStats; ConsumeSketch; ConsumeTimeSeries] Consumer = true
  /\ implements ([ConsumeAPMStats; ConsumeSketch; ConsumeTimeSeries]
                 ++ [ConsumeHost; ConsumeTag]) Consumer = true.
Proof.
  split; [reflexivity|].
  apply Consumer_extra_methods. reflexivity.
Defined.

(** The host and tags interfaces are optional: the method set of
    [Consumer] itself implements each of the three mandatory interfaces but
    neither [HostConsumer] nor [TagsConsumer]. *)
Theorem Consumer_optional_interfaces :
  implements Consumer TimeSeriesConsumer = true
  /\ implements Consumer SketchConsumer = true
  /\ implements Consumer APMStatsConsumer = true
  /\ implements Consumer HostConsumer = false
  /\ implements Consumer TagsConsumer = false.
Proof. repeat split. Qed.

(** The compile-time assertions of consumer.go hold under Go's method-set
    rule: [*MetricDataType] satisfies both [encoding.TextMarshaler] and
    [encoding.TextUnmarshaler]; [MetricDataType] satisfies
    [encoding.TextMarshaler] only, [UnmarshalText] having a pointer
    receiver. *)
Theorem MetricDataType_text_interfaces :
  TextEncoding.satisfies (TextEncoding.method_set true TextEncoding.MetricDataType_decls)
    TextEncoding.TextMarshaler = true
  /\ TextEncoding.satisfies (TextEncoding.method_set true TextEncoding.MetricDataType_decls)
    TextEncoding.TextUnmarshaler = true
  /\ TextEncoding.satisfies (TextEncoding.method_set false TextEncoding.MetricDataType_decls)
    TextEncoding.TextMarshaler = true
  /\ TextEncoding.satisfies (TextEncoding.method_set false TextEncoding.MetricDataType_decls)
    TextEncoding.TextUnmarshaler = false.
Proof. repeat split. Qed.

End Extras.

(** * Properties of comp/core/bundle.go *)
Module BundleFacts.

Import CoreBundle.

(** [MockBundle] is [Bundle] with [flare.Module] left out: the same options
    in the same order, minus the last. *)
Theorem Bundle_is_MockBundle_plus_flare (C L : Type) :
  Bundle C L = MockBundle C L ++ [FlareModule C L].
Proof. reflexivity. Qed.

(** In both bundles the config and log components receive the
    [ConfigParams] and [LogParams] fields of the bundle parameters. *)
Theorem bundles_provide_params (C L : Type) (p : BundleParams C L) :
  provided_config C L (Bundle C L) p = Some (bp_ConfigParams C L p)
  /\ provided_log C L (Bundle C L) p = Some (bp_LogParams C L p)
  /\ provided_config C L (MockBundle C L) p = Some (bp_ConfigParams C L p)
  /\ provided_log C L (MockBundle C L) p = Some (bp_LogParams C L p).
Proof. repeat split. Qed.

End BundleFacts.
